(** * t5x/train_state.py: the optimizer-backed train state

    A shallow embedding of [FlaxOptimTrainState] and of the operations of the
    [TrainState] protocol.  Python exceptions are values of an error monad,
    dictionaries are finite maps with string keys, and the objects of
    [flax.optim] that the train state delegates to are an interface
    ([optim.Optim]) whose contract is stated law by law. *)

From stdpp Require Import base strings gmap fin_maps pretty.
From Stdlib Require Import ZArith.

Local Open Scope Z_scope.
Local Open Scope string_scope.

(** ** Exceptions and the error monad *)

Inductive exn : Type :=
  | KeyError (key : string)
  | ValueError (msg : string)
  | TypeError (msg : string)
  | AssertionError (msg : string).

Inductive result (A : Type) : Type :=
  | OK (a : A)
  | Raise (e : exn).
Arguments OK {A} a.
Arguments Raise {A} e.

Definition result_bind {A B : Type} (f : A → result B) (m : result A) : result B :=
  match m with
  | OK a => f a
  | Raise e => Raise e
  end.

#[global] Instance result_ret : MRet result := @OK.
#[global] Instance result_mbind : MBind result := @result_bind.

(** ** Python values: arrays and nested dictionaries *)

Section Pytree.
Context {tensor : Type}.

(** What sits at the leaves of the trees this module handles: the integer
    scalar of the step counter, a numeric tensor (opaque here), the axis
    names of a parameter (a tuple of strings), or a string. *)
Inductive leaf : Type :=
  | Int (n : Z)
  | Tensor (t : tensor)
  | Axes (names : list string)
  | Str (s : string).

(** A nested dictionary with string keys.  A [FrozenDict] and a plain [dict]
    with the same entries differ in whether they can be assigned to; the
    embedding is functional, so both are finite maps, and [freeze] and
    [unfreeze] convert between a value and a mapping. *)
#[warnings="-register-all"]
Inductive pytree : Type :=
  | Leaf (x : leaf)
  | Dict (d : gmap string pytree).

End Pytree.
Arguments leaf tensor : clear implicits.
Arguments pytree tensor : clear implicits.

(** [flax.core] *)
Module flax_core.

Class Core (tensor : Type) : Type := {
  (** [freeze(x)] on a value [x] that is no dictionary.  [FrozenDict(x)] hands
      [x] to [dict], which reads an iterable as pairs of a key and a value:
      what comes of it depends on the value (the empty tuple is the empty
      dictionary, other values raise one error or another). *)
  freeze_leaf : leaf tensor → result (gmap string (pytree tensor));
}.

End flax_core.

Section Dictionaries.
Context {tensor : Type}.
Context `{!flax_core.Core tensor}.

(** [EMPTY_DICT = flax.core.freeze({})] *)
Definition EMPTY_DICT : gmap string (pytree tensor) := ∅.

(** [flax.core.freeze(xs)]: a dictionary becomes the frozen dictionary with
    its entries; any other value is for [dict] to read. *)
Definition freeze (xs : pytree tensor) : result (gmap string (pytree tensor)) :=
  match xs with
  | Dict d => OK d
  | Leaf x => flax_core.freeze_leaf x
  end.

(** [flax.core.unfreeze(x)]: a mutable copy of the nested dictionary. *)
Definition unfreeze (x : gmap string (pytree tensor)) : pytree tensor := Dict x.

(** Truth value of a mapping ([if d:]): [len(d) != 0]. *)
Definition truthy (d : gmap string (pytree tensor)) : bool :=
  negb (Nat.eqb (size d) 0).

(** [key in d] *)
Definition contains (key : string) (d : gmap string (pytree tensor)) : bool :=
  bool_decide (is_Some (d !! key)).

(** [d[key]] *)
Definition getitem (key : string) (d : gmap string (pytree tensor))
  : result (pytree tensor) :=
  match d !! key with
  | Some v => OK v
  | None => Raise (KeyError key)
  end.

(** [x[key] = v] on a value that was read out of a dictionary: a nested [dict]
    takes the entry, an array does not support item assignment. *)
Definition setitem (key : string) (v : pytree tensor) (x : pytree tensor)
  : result (pytree tensor) :=
  match x with
  | Dict d => OK (Dict (<[key := v]> d))
  | Leaf _ => Raise (TypeError "object does not support item assignment")
  end.

(** [FrozenDict.pop(key)]: the mapping without [key], and the value it had. *)
Definition FrozenDict_pop (key : string) (d : gmap string (pytree tensor))
  : result (gmap string (pytree tensor) * pytree tensor) :=
  value ← getitem key d;
  mret (delete key d, value).

End Dictionaries.

(** ** The collaborators *)

(** [flax.optim]: an [OptimizerDef] and the [Optimizer] value it creates, as far
    as the train state uses them.  A method that an [OptimizerDef] may or may
    not have ([hasattr]) is an [option]. *)
Module optim.

Class Optim (tensor OptimizerDef Optimizer : Type) : Type := {
  (** [optimizer_def.__class__.__name__] *)
  class_name : OptimizerDef → string;
  (** [optimizer_def.create(params)] *)
  create : OptimizerDef → pytree tensor → result Optimizer;
  (** [optimizer_def.set_param_axes(axis_names)], which stores the axes in the
      definition: the definition after the call is returned. *)
  set_param_axes : OptimizerDef → option (pytree tensor → result OptimizerDef);
  (** [optimizer_def.derive_logical_axes(optimizer, axis_names)] *)
  derive_logical_axes :
    OptimizerDef → option (Optimizer → pytree tensor → result Optimizer);
  (** [optimizer.optimizer_def] *)
  optimizer_def : Optimizer → OptimizerDef;
  (** [optimizer.state.step] *)
  step : Optimizer → Z;
  (** [optimizer.target] *)
  target : Optimizer → pytree tensor;
  (** [optimizer.state.param_states] *)
  param_states : Optimizer → pytree tensor;
  (** [optimizer.state_dict()] *)
  state_dict : Optimizer → gmap string (pytree tensor);
  (** [optimizer.restore_state(state_dict)] *)
  restore_state : Optimizer → gmap string (pytree tensor) → result Optimizer;
  (** [optimizer.apply_gradient(grads, learning_rate=learning_rate)] *)
  apply_gradient : Optimizer → pytree tensor → leaf tensor → result Optimizer;
  (** [optimizer.replace(target=params)] *)
  replace_target : Optimizer → pytree tensor → Optimizer;
}.

End optim.

(** [flax.linen.partitioning] *)
Module flax_partitioning.

Class Partitioning (tensor : Type) : Type := {
  (** [get_axis_names(axes_metadata)]; the argument may be [None]. *)
  get_axis_names : option (pytree tensor) → result (pytree tensor);
}.

End flax_partitioning.

(** ** FlaxOptimTrainState *)

Section TrainState.
Context {tensor OptimizerDef Optimizer : Type}.
Context `{!optim.Optim tensor OptimizerDef Optimizer}.
Context `{!flax_partitioning.Partitioning tensor}.
Context `{!flax_core.Core tensor}.

(** The dataclass: [params_axes] is [None] when the model emits no axis
    metadata, which is not the same as an empty tree. *)
Record FlaxOptimTrainState : Type := {
  _optimizer : Optimizer;
  params_axes : option (pytree tensor);
  flax_mutables : gmap string (pytree tensor);
}.

(** The constructor with its defaults, [params_axes=None] and
    [flax_mutables=EMPTY_DICT]; an argument left out is [None] here. *)
Definition init (optimizer : Optimizer) (axes : option (pytree tensor))
    (mutables : option (gmap string (pytree tensor))) : FlaxOptimTrainState :=
  {| _optimizer := optimizer;
     params_axes := axes;
     flax_mutables := default EMPTY_DICT mutables |}.

(** [self.replace] of [flax.struct] with keyword arguments: a new instance in
    which the fields that are named take the new value and the others are
    those of [self]. *)
Definition replace (self : FlaxOptimTrainState)
    (optimizer' : option Optimizer)
    (params_axes' : option (option (pytree tensor)))
    (flax_mutables' : option (gmap string (pytree tensor)))
  : FlaxOptimTrainState :=
  {| _optimizer := default (_optimizer self) optimizer';
     params_axes := default (params_axes self) params_axes';
     flax_mutables := default (flax_mutables self) flax_mutables' |}.

Definition missing_axes_message : string :=
  "The optimizer supports params_axes for model-based " ++
  "partitioning, but the model is not emitting them.".

(** [FlaxOptimTrainState.create].  [set_param_axes] changes the definition it
    is called on, and the optimizer is created from the changed definition. *)
Definition create (optimizer_def : OptimizerDef)
    (model_variables : gmap string (pytree tensor)) : result FlaxOptimTrainState :=
  '(other_variables, params) ← FrozenDict_pop "params" model_variables;
  '(flax_mutables, params_axes) ←
    (if contains "params_axes" other_variables
     then '(rest, axes) ← FrozenDict_pop "params_axes" other_variables;
          mret (rest, Some axes)
     else mret (other_variables, None));
  optimizer_def ←
    match optim.set_param_axes optimizer_def with
    | Some set_param_axes =>
        match params_axes with
        | None => Raise (ValueError missing_axes_message)
        | Some _ =>
            axis_names ← flax_partitioning.get_axis_names params_axes;
            set_param_axes axis_names
        end
    | None => mret optimizer_def
    end;
  optimizer ← optim.create optimizer_def params;
  mret (init optimizer params_axes (Some flax_mutables)).

Definition step (self : FlaxOptimTrainState) : Z :=
  optim.step (_optimizer self).

Definition params (self : FlaxOptimTrainState) : pytree tensor :=
  optim.target (_optimizer self).

Definition param_states (self : FlaxOptimTrainState) : pytree tensor :=
  optim.param_states (_optimizer self).

Definition state_dict (self : FlaxOptimTrainState) : gmap string (pytree tensor) :=
  let state_dict := optim.state_dict (_optimizer self) in
  if truthy (flax_mutables self)
  then <["flax_mutables" := unfreeze (flax_mutables self)]> state_dict
  else state_dict.

(** [flax_mutables] is a keyword argument with default [EMPTY_DICT]: [None]
    stands for a call that leaves it out. *)
Definition apply_gradient (self : FlaxOptimTrainState)
    (grads : pytree tensor) (learning_rate : leaf tensor)
    (flax_mutables : option (gmap string (pytree tensor)))
  : result FlaxOptimTrainState :=
  new_optimizer ← optim.apply_gradient (_optimizer self) grads learning_rate;
  mret (replace self (Some new_optimizer) None
          (Some (default EMPTY_DICT flax_mutables))).

Definition replace_params (self : FlaxOptimTrainState) (params : pytree tensor)
  : FlaxOptimTrainState :=
  replace self (Some (optim.replace_target (_optimizer self) params)) None None.

Definition restore_state (self : FlaxOptimTrainState)
    (state_dict : gmap string (pytree tensor)) : result FlaxOptimTrainState :=
  new_optimizer ← optim.restore_state (_optimizer self) state_dict;
  flax_mutables ←
    (if contains "flax_mutables" state_dict
     then value ← getitem "flax_mutables" state_dict; freeze value
     else mret EMPTY_DICT);
  mret (replace self (Some new_optimizer) None (Some flax_mutables)).

(** [state_dict['state']['step'] = step] assigns into the dictionary that
    [state_dict] holds under ['state']; with values instead of references the
    changed entry is written back. *)
Definition replace_step (self : FlaxOptimTrainState) (step : Z)
  : result FlaxOptimTrainState :=
  let state_dict := state_dict self in
  state ← getitem "state" state_dict;
  state ← setitem "step" (Leaf (Int step)) state;
  let state_dict := <["state" := state]> state_dict in
  restore_state self state_dict.

Definition unsupported_axes_message (class_name : string) : string :=
  "Optimizer '" ++ class_name ++ "' " ++
  "requires a `derive_logical_axes` method to be used with named axis " ++
  "partitioning.".

Definition as_logical_axes (self : FlaxOptimTrainState)
  : result FlaxOptimTrainState :=
  let optimizer_def := optim.optimizer_def (_optimizer self) in
  match optim.derive_logical_axes optimizer_def with
  | None =>
      Raise (ValueError (unsupported_axes_message (optim.class_name optimizer_def)))
  | Some derive_logical_axes =>
      axis_names ← flax_partitioning.get_axis_names (params_axes self);
      optimizer ← derive_logical_axes (_optimizer self) axis_names;
      mret (init optimizer None None)
  end.

End TrainState.
Arguments FlaxOptimTrainState tensor Optimizer : clear implicits.

(** ** What the train state expects of an optimizer

    The train state delegates to the optimizer value and adds its own
    ['flax_mutables'] entry to the optimizer's state dict.  Each expectation
    is a proposition about an instance of [optim.Optim]; a theorem below takes
    the ones it needs as hypotheses. *)

Section Contract.
Context {tensor OptimizerDef Optimizer : Type}.
Context `{!optim.Optim tensor OptimizerDef Optimizer}.


(** The optimizer's state dict leaves the key ['flax_mutables'] free. *)
Definition state_dict_leaves_flax_mutables : Prop :=
  ∀ o : Optimizer, optim.state_dict o !! "flax_mutables" = None.

(** The optimizer's [restore_state] does not read the entry ['flax_mutables']. *)
Definition restore_ignores_flax_mutables : Prop :=
  ∀ (o : Optimizer) (sd : gmap string (pytree tensor)) (v : pytree tensor),
    optim.restore_state o (<["flax_mutables" := v]> sd) = optim.restore_state o sd.


(** The state dict keeps the step under ['state']['step'], and restoring with
    another step there changes the step and nothing else. *)
Definition restore_of_new_step : Prop :=
  ∀ (o : Optimizer) (n : Z), ∃ (m : gmap string (pytree tensor)) (o' : Optimizer),
    optim.state_dict o !! "state" = Some (Dict m)
    ∧ optim.restore_state o
        (<["state" := Dict (<["step" := Leaf (Int n)]> m)]> (optim.state_dict o)) = OK o'
    ∧ optim.step o' = n
    ∧ optim.target o' = optim.target o
    ∧ optim.param_states o' = optim.param_states o.

(** [apply_gradient] of the optimizer counts the update. *)
Definition apply_gradient_increments_step : Prop :=
  ∀ (o o' : Optimizer) (grads : pytree tensor) (learning_rate : leaf tensor),
    optim.apply_gradient o grads learning_rate = OK o' →
    optim.step o' = optim.step o + 1.

(** The keys a snapshot cannot do without: the parameter tree under
    ['target'] and the step under ['state']['step']. *)
Definition has_required_keys (sd : gmap string (pytree tensor)) : Prop :=
  is_Some (sd !! "target")
  ∧ ∃ m : gmap string (pytree tensor),
      sd !! "state" = Some (Dict m) ∧ is_Some (m !! "step").

(** A snapshot with the step entry overwritten by [n]. *)
Definition overwrite_step (n : Z) (sd : gmap string (pytree tensor))
  : gmap string (pytree tensor) :=
  alter (λ state,
           match state with
           | Dict m => Dict (<["step" := Leaf (Int n)]> m)
           | Leaf x => Leaf x
           end) "state" sd.

End Contract.

(** ** A reference optimizer

    An instance of the interface with the layout of [flax.optim.Optimizer]:
    the state dict is [{'target': ..., 'state': {'step': ..., 'param_states':
    ...}}], [restore_state] reads these entries and no other, and
    [apply_gradient] adds one to the step and leaves the new parameters to the
    update rule of the definition.  It shows that the expectations above can
    be met, and the operations are run on it. *)
Module ref.

Section Ref.
Context {tensor : Type}.

Record OptimizerDef : Type := {
  name : string;
  (** whether the class has [set_param_axes] *)
  sets_axes : bool;
  (** whether the class has [derive_logical_axes] *)
  derives_axes : bool;
  (** what [set_param_axes] stored *)
  axes : option (pytree tensor);
  (** parameters, their states, gradients and learning rate to the new
      parameters and states *)
  update : pytree tensor → pytree tensor → pytree tensor → leaf tensor →
           result (pytree tensor * pytree tensor);
}.

Record OptimizerState : Type := {
  step : Z;
  param_states : pytree tensor;
}.

Record Optimizer : Type := {
  optimizer_def : OptimizerDef;
  state : OptimizerState;
  target : pytree tensor;
}.

Definition set_param_axes (d : OptimizerDef) (axis_names : pytree tensor)
  : result OptimizerDef :=
  OK {| name := name d; sets_axes := sets_axes d; derives_axes := derives_axes d;
        axes := Some axis_names; update := update d |}.

Definition create (d : OptimizerDef) (params : pytree tensor) : result Optimizer :=
  OK {| optimizer_def := d;
        state := {| step := 0; param_states := params |};
        target := params |}.

Definition derive_logical_axes (o : Optimizer) (axis_names : pytree tensor)
  : result Optimizer :=
  OK {| optimizer_def := optimizer_def o;
        state := {| step := step (state o); param_states := axis_names |};
        target := axis_names |}.

Definition state_dict (o : Optimizer) : gmap string (pytree tensor) :=
  {[ "target" := target o;
     "state" := Dict {[ "step" := Leaf (Int (step (state o)));
                        "param_states" := param_states (state o) ]} ]}.

Definition restore_state (o : Optimizer) (sd : gmap string (pytree tensor))
  : result Optimizer :=
  new_target ← getitem "target" sd;
  new_state ← getitem "state" sd;
  match new_state with
  | Dict m =>
      match m !! "step", m !! "param_states" with
      | Some (Leaf (Int n)), Some states =>
          OK {| optimizer_def := optimizer_def o;
                state := {| step := n; param_states := states |};
                target := new_target |}
      | _, _ => Raise (ValueError "the state does not match the optimizer state")
      end
  | Leaf _ => Raise (ValueError "the state does not match the optimizer state")
  end.

Definition apply_gradient (o : Optimizer) (grads : pytree tensor)
    (learning_rate : leaf tensor) : result Optimizer :=
  '(new_target, new_states) ←
    update (optimizer_def o) (target o) (param_states (state o)) grads learning_rate;
  OK {| optimizer_def := optimizer_def o;
        state := {| step := step (state o) + 1; param_states := new_states |};
        target := new_target |}.

Definition replace_target (o : Optimizer) (params : pytree tensor) : Optimizer :=
  {| optimizer_def := optimizer_def o; state := state o; target := params |}.

#[global] Instance Optim_instance : optim.Optim tensor OptimizerDef Optimizer := {
  optim.class_name := name;
  optim.create := create;
  optim.set_param_axes := λ d, if sets_axes d then Some (set_param_axes d) else None;
  optim.derive_logical_axes := λ d, if derives_axes d then Some derive_logical_axes else None;
  optim.optimizer_def := optimizer_def;
  optim.step := λ o, step (state o);
  optim.target := target;
  optim.param_states := λ o, param_states (state o);
  optim.state_dict := state_dict;
  optim.restore_state := restore_state;
  optim.apply_gradient := apply_gradient;
  optim.replace_target := replace_target;
}.

(** [get_axis_names] reads the names off a tree of axis metadata and asserts
    that it was given a dictionary. *)
Definition get_axis_names (axes_metadata : option (pytree tensor))
  : result (pytree tensor) :=
  match axes_metadata with
  | Some (Dict d) => OK (Dict d)
  | Some (Leaf _) | None => Raise (AssertionError "expected (frozen)dict")
  end.

#[global] Instance Partitioning_instance : flax_partitioning.Partitioning tensor := {
  flax_partitioning.get_axis_names := get_axis_names;
}.

(** The error of [dict] on an item that is no pair. *)
Definition not_a_pair (index length : nat) : exn :=
  ValueError ("dictionary update sequence element #" ++ pretty index
              ++ " has length " ++ pretty length ++ "; 2 is required").

(** [dict] on a sequence of strings: a string of two characters is a key and
    a value, a later key replaces an earlier one, and the first string of
    another length ends it. *)
Fixpoint dict_of_pairs (index : nat) (items : list string)
    (acc : gmap string (pytree tensor)) : result (gmap string (pytree tensor)) :=
  match items with
  | [] => OK acc
  | item :: rest =>
      match item with
      | String key (String value EmptyString) =>
          dict_of_pairs (S index) rest
            (<[String key EmptyString := Leaf (Str (String value EmptyString))]> acc)
      | _ => Raise (not_a_pair index (String.length item))
      end
  end.

(** [dict] on the leaves: an integer and a scalar tensor cannot be iterated,
    a tuple of names is read name by name, and a string character by
    character. *)
Definition freeze_leaf (x : leaf tensor) : result (gmap string (pytree tensor)) :=
  match x with
  | Int _ => Raise (TypeError "'int' object is not iterable")
  | Tensor _ => Raise (TypeError "iteration over a 0-d array")
  | Axes names => dict_of_pairs 0 names ∅
  | Str EmptyString => OK ∅
  | Str (String _ _) => Raise (not_a_pair 0 1)
  end.

#[global] Instance Core_instance : flax_core.Core tensor := {
  flax_core.freeze_leaf := freeze_leaf;
}.

End Ref.
Arguments OptimizerDef tensor : clear implicits.
Arguments OptimizerState tensor : clear implicits.
Arguments Optimizer tensor : clear implicits.

End ref.

(** ** Concrete inputs *)

Module sample.

(** A definition without axis support whose rule keeps the parameters and
    insists on a dictionary of gradients. *)
Definition descent : ref.OptimizerDef Z :=
  {| ref.name := "GradientDescent";
     ref.sets_axes := false;
     ref.derives_axes := false;
     ref.axes := None;
     ref.update := λ params states grads _,
       match grads with
       | Dict _ => OK (params, states)
       | Leaf _ => Raise (ValueError "the gradients do not match the parameters")
       end |}.

(** The same rule in a class with [set_param_axes] and [derive_logical_axes]. *)
Definition adafactor : ref.OptimizerDef Z :=
  {| ref.name := "Adafactor";
     ref.sets_axes := true;
     ref.derives_axes := true;
     ref.axes := None;
     ref.update := ref.update descent |}.

Definition weights : pytree Z := Dict {[ "w" := Leaf (Tensor 1) ]}.
Definition moments : pytree Z := Dict {[ "w" := Leaf (Tensor 0) ]}.
Definition grads : pytree Z := Dict {[ "w" := Leaf (Tensor 2) ]}.
Definition learning_rate : leaf Z := Tensor 1.
Definition weight_axes : pytree Z := Dict {[ "w" := Leaf (Axes ["model"]) ]}.
Definition batch_stats : pytree Z := Dict {[ "mean" := Leaf (Tensor 3) ]}.

(** A state at step 7 with one mutable collection and no axis metadata. *)
Definition plain_state : FlaxOptimTrainState Z (ref.Optimizer Z) :=
  {| _optimizer :=
       {| ref.optimizer_def := descent;
          ref.state := {| ref.step := 7; ref.param_states := moments |};
          ref.target := weights |};
     params_axes := None;
     flax_mutables := {[ "batch_stats" := batch_stats ]} |}.

(** A state of an axis-aware optimizer, with axis metadata and no mutables. *)
Definition sharded_state : FlaxOptimTrainState Z (ref.Optimizer Z) :=
  {| _optimizer :=
       {| ref.optimizer_def := adafactor;
          ref.state := {| ref.step := 0; ref.param_states := moments |};
          ref.target := weights |};
     params_axes := Some weight_axes;
     flax_mutables := ∅ |}.

(** What a model without axis metadata emits. *)
Definition model_variables : gmap string (pytree Z) :=
  {[ "params" := weights; "batch_stats" := batch_stats ]}.

(** What a model with axis metadata emits. *)
Definition sharded_model_variables : gmap string (pytree Z) :=
  {[ "params" := weights; "params_axes" := weight_axes;
     "batch_stats" := batch_stats ]}.

(** Mutables that a training step hands back. *)
Definition new_mutables : gmap string (pytree Z) :=
  {[ "cache" := Dict {[ "index" := Leaf (Int 5) ]} ]}.

(** A checkpoint written without ['flax_mutables']. *)
Definition snapshot : gmap string (pytree Z) :=
  {[ "target" := weights;
     "state" := Dict {[ "step" := Leaf (Int 3); "param_states" := moments ]} ]}.

(** A checkpoint that lost its ['state']. *)
Definition truncated_snapshot : gmap string (pytree Z) :=
  {[ "target" := weights ]}.

End sample.

(** ** Further expectations and inputs *)

Section ReplaceContract.
Context {tensor OptimizerDef Optimizer : Type}.
Context `{!optim.Optim tensor OptimizerDef Optimizer}.

(** [optimizer.replace(target=params)] sets the parameters and keeps the step
    and the optimizer state. *)
Definition replace_target_sets_target : Prop :=
  ∀ (o : Optimizer) (new_params : pytree tensor),
    optim.target (optim.replace_target o new_params) = new_params
    ∧ optim.step (optim.replace_target o new_params) = optim.step o
    ∧ optim.param_states (optim.replace_target o new_params) = optim.param_states o.

End ReplaceContract.

(** An optimizer whose state dict is flat, [{'step': ..., 'target': ...}],
    with nothing under ['state']: another instance of the interface, on which
    the operations that reach into the optimizer's state dict are run. *)
Module flat.

Section Flat.
Context {tensor : Type}.

Record Optimizer : Type := {
  step : Z;
  target : pytree tensor;
}.

Definition state_dict (o : Optimizer) : gmap string (pytree tensor) :=
  {[ "step" := Leaf (Int (step o)); "target" := target o ]}.

Definition restore_state (o : Optimizer) (sd : gmap string (pytree tensor))
  : result Optimizer :=
  new_target ← getitem "target" sd;
  new_step ← getitem "step" sd;
  match new_step with
  | Leaf (Int n) => OK {| step := n; target := new_target |}
  | _ => Raise (ValueError "the step is not an integer")
  end.

#[global] Instance Optim_instance : optim.Optim tensor unit Optimizer := {
  optim.class_name := λ _, "Flat";
  optim.create := λ _ params, OK {| step := 0; target := params |};
  optim.set_param_axes := λ _, None;
  optim.derive_logical_axes := λ _, None;
  optim.optimizer_def := λ _, tt;
  optim.step := step;
  optim.target := target;
  optim.param_states := λ _, Dict ∅;
  optim.state_dict := state_dict;
  optim.restore_state := restore_state;
  optim.apply_gradient := λ o _ _, OK {| step := step o + 1; target := target o |};
  optim.replace_target := λ o params, {| step := step o; target := params |};
}.

End Flat.
Arguments Optimizer tensor : clear implicits.

End flat.

Module more_sample.

Definition new_weights : pytree Z := Dict {[ "w" := Leaf (Tensor 9) ]}.

(** Model variables without parameters, with axis metadata. *)
Definition axes_only_variables : gmap string (pytree Z) :=
  {[ "params_axes" := sample.weight_axes ]}.

(** A state over the flat optimizer. *)
Definition flat_state : FlaxOptimTrainState Z (flat.Optimizer Z) :=
  {| _optimizer := {| flat.step := 5; flat.target := sample.weights |};
     params_axes := None;
     flax_mutables := {[ "batch_stats" := sample.batch_stats ]} |}.

(** A checkpoint with the parameter tree and the step, without optimizer
    state and without ['flax_mutables']. *)
Definition partial_snapshot : gmap string (pytree Z) :=
  {[ "target" := sample.weights;
     "state" := Dict {[ "step" := Leaf (Int 3) ]} ]}.

(** What [as_logical_axes] returns on [sample.sharded_state]. *)
Definition projected_state : FlaxOptimTrainState Z (ref.Optimizer Z) :=
  {| _optimizer :=
       {| ref.optimizer_def := sample.adafactor;
          ref.state := {| ref.step := 0; ref.param_states := sample.weight_axes |};
          ref.target := sample.weight_axes |};
     params_axes := None;
     flax_mutables := ∅ |}.

(** The sharded optimizer of [sample], on a state without axis metadata. *)
Definition unlabelled_state : FlaxOptimTrainState Z (ref.Optimizer Z) :=
  replace sample.sharded_state None (Some None) None.

End more_sample.

(** * Properties *)

(** ** Dictionaries and the error monad *)

Section PytreeFacts.
Context {tensor : Type}.
Implicit Types d sd : gmap string (pytree tensor).

Lemma bind_OK {A B : Type} (a : A) (f : A → result B) : OK a ≫= f = f a.
Proof. reflexivity. Qed.

Lemma bind_inv_OK {A B : Type} (m : result A) (f : A → result B) (b : B) :
  m ≫= f = OK b → ∃ a : A, m = OK a ∧ f a = OK b.
Proof. destruct m as [a|e]; [eauto | discriminate]. Qed.

Lemma truthy_false d : truthy d = false ↔ d = ∅.
Proof.
  unfold truthy. rewrite negb_false_iff, Nat.eqb_eq.
  apply map_size_empty_iff.
Qed.

Lemma contains_true key d : contains key d = true ↔ is_Some (d !! key).
Proof. unfold contains. apply bool_decide_eq_true. Qed.

Lemma contains_false key d : contains key d = false ↔ d !! key = None.
Proof.
  unfold contains. rewrite bool_decide_eq_false. symmetry. apply eq_None_not_Some.
Qed.

Lemma getitem_Some key d v : d !! key = Some v → getitem key d = OK v.
Proof. unfold getitem. by intros ->. Qed.

Lemma getitem_None key d : d !! key = None → getitem key d = Raise (KeyError key).
Proof. unfold getitem. by intros ->. Qed.

(** Overwriting the step through [alter] is the assignment the code makes. *)
Lemma overwrite_step_insert n sd m :
  sd !! "state" = Some (Dict m) →
  overwrite_step n sd = <["state" := Dict (<["step" := Leaf (Int n)]> m)]> sd.
Proof.
  intros Hstate. unfold overwrite_step. apply map_eq. intros key.
  destruct (decide (key = "state")) as [->|Hne].
  - by rewrite lookup_alter_eq, lookup_insert_eq, Hstate.
  - by rewrite lookup_alter_ne, lookup_insert_ne.
Qed.

End PytreeFacts.

(** ** The train state over any optimizer *)

Section TrainStateFacts.
Context {tensor OptimizerDef Optimizer : Type}.
Context `{!optim.Optim tensor OptimizerDef Optimizer}.
Context `{!flax_partitioning.Partitioning tensor}.
Context `{!flax_core.Core tensor}.
Implicit Types S T : FlaxOptimTrainState tensor Optimizer.
Implicit Types sd : gmap string (pytree tensor).

(** What [restore_state] returns on a snapshot the optimizer accepts, by
    whether the snapshot has the entry ['flax_mutables']. *)
Lemma restore_state_without_mutables S sd o' :
  optim.restore_state (_optimizer S) sd = OK o' →
  sd !! "flax_mutables" = None →
  restore_state S sd = OK (replace S (Some o') None (Some EMPTY_DICT)).
Proof.
  intros Hopt Hnone. unfold restore_state.
  rewrite Hopt, bind_OK. apply contains_false in Hnone. by rewrite Hnone.
Qed.

Lemma restore_state_with_mutables S sd o' d :
  optim.restore_state (_optimizer S) sd = OK o' →
  sd !! "flax_mutables" = Some (Dict d) →
  restore_state S sd = OK (replace S (Some o') None (Some d)).
Proof.
  intros Hopt Hsome. unfold restore_state. rewrite Hopt, bind_OK.
  assert (contains "flax_mutables" sd = true) as ->
    by (apply contains_true; eauto).
  by rewrite (getitem_Some _ _ _ Hsome).
Qed.

Lemma restore_state_raises S sd e :
  optim.restore_state (_optimizer S) sd = Raise e → restore_state S sd = Raise e.
Proof. intros Hopt. unfold restore_state. by rewrite Hopt. Qed.

(** Restoring [T] from a snapshot that is the optimizer's own entries [osd]
    plus the mutables of [S], as [state_dict] adds them. *)
Lemma restore_state_keeps_mutables T S sd osd o' :
  restore_ignores_flax_mutables →
  osd !! "flax_mutables" = None →
  optim.restore_state (_optimizer T) osd = OK o' →
  sd = (if truthy (flax_mutables S)
        then <["flax_mutables" := unfreeze (flax_mutables S)]> osd else osd) →
  restore_state T sd = OK (replace T (Some o') None (Some (flax_mutables S))).
Proof.
  intros Hignore Hfree Hopt ->.
  destruct (truthy (flax_mutables S)) eqn:Hfm.
  - apply restore_state_with_mutables.
    + by rewrite Hignore.
    + apply lookup_insert_eq.
  - apply truthy_false in Hfm. rewrite Hfm.
    by apply restore_state_without_mutables.
Qed.

(** X10. A checkpoint of [S] restored into another state [T], as on a restart:
    the mutables are those of [S], the rest is up to the optimizer. *)
Lemma restore_state_of_other_state_dict T S o' :
  state_dict_leaves_flax_mutables →
  restore_ignores_flax_mutables →
  optim.restore_state (_optimizer T) (optim.state_dict (_optimizer S)) = OK o' →
  restore_state T (state_dict S)
  = OK (replace T (Some o') None (Some (flax_mutables S))).
Proof.
  intros Hfree Hignore Hopt.
  by apply (restore_state_keeps_mutables T S _ (optim.state_dict (_optimizer S))).
Qed.


(** C2. A gradient step that the optimizer accepts returns a state whose step
    is one more, given that the optimizer's own [apply_gradient] adds one to
    its step. *)
Theorem apply_gradient_step S grads learning_rate mutables o' :
  apply_gradient_increments_step →
  optim.apply_gradient (_optimizer S) grads learning_rate = OK o' →
  ∃ S', apply_gradient S grads learning_rate mutables = OK S'
        ∧ step S' = step S + 1.
Proof.
  intros Hinc Hopt. unfold apply_gradient. rewrite Hopt, bind_OK.
  eexists. split; [reflexivity|].
  unfold step. cbn. eapply Hinc, Hopt.
Qed.

(** C3. A gradient step leaves the axis metadata as it was, present or
    absent, whatever mutables it is given. *)
Theorem apply_gradient_params_axes S grads learning_rate mutables o' :
  optim.apply_gradient (_optimizer S) grads learning_rate = OK o' →
  ∃ S', apply_gradient S grads learning_rate mutables = OK S'
        ∧ params_axes S' = params_axes S.
Proof.
  intros Hopt. unfold apply_gradient. rewrite Hopt, bind_OK.
  eexists. split; [reflexivity|]. destruct S as [o axes fm]. reflexivity.
Qed.

(** C4. The mutables of the state a gradient step returns are the argument
    and nothing of the old collection: a key the argument lacks is absent from
    the result although the old state had it.  Without the argument the
    mutables are empty. *)
Theorem apply_gradient_flax_mutables S grads learning_rate o' :
  optim.apply_gradient (_optimizer S) grads learning_rate = OK o' →
  (∀ M : gmap string (pytree tensor), ∃ S',
      apply_gradient S grads learning_rate (Some M) = OK S'
      ∧ flax_mutables S' = M
      ∧ ∀ key, M !! key = None → flax_mutables S' !! key = None)
  ∧ (∃ S', apply_gradient S grads learning_rate None = OK S'
           ∧ flax_mutables S' = EMPTY_DICT).
Proof.
  intros Hopt. unfold apply_gradient. rewrite Hopt. split.
  - intros M. rewrite bind_OK. eexists. split; [reflexivity|]. cbn. auto.
  - rewrite bind_OK. eexists. split; reflexivity.
Qed.

(** C5. With an optimizer definition that has [set_param_axes], and model
    variables whose remainder after taking out ['params'] has no
    ['params_axes'], [create] raises the error about missing axes and returns
    no state. *)
Theorem create_missing_axes (optimizer_def : OptimizerDef)
    (set_param_axes : pytree tensor → result OptimizerDef)
    (model_variables other_variables : gmap string (pytree tensor))
    (model_params : pytree tensor) :
  optim.set_param_axes optimizer_def = Some set_param_axes →
  FrozenDict_pop "params" model_variables = OK (other_variables, model_params) →
  other_variables !! "params_axes" = None →
  create optimizer_def model_variables = Raise (ValueError missing_axes_message)
  ∧ ∀ S, create optimizer_def model_variables ≠ OK S.
Proof.
  intros Hset Hpop Haxes.
  assert (create optimizer_def model_variables
          = Raise (ValueError missing_axes_message)) as Hraise.
  { unfold create. rewrite Hpop, bind_OK.
    apply contains_false in Haxes. rewrite Haxes, bind_OK.
    by rewrite Hset. }
  split; [done|]. intros S. by rewrite Hraise.
Qed.

(** X5. Without ['params'] the model variables are refused before the axes are
    looked at. *)
Lemma create_missing_params (optimizer_def : OptimizerDef)
    (model_variables : gmap string (pytree tensor)) :
  model_variables !! "params" = None →
  create optimizer_def model_variables = Raise (KeyError "params").
Proof.
  intros Hnone. unfold create, FrozenDict_pop.
  by rewrite (getitem_None _ _ Hnone).
Qed.

(** C6. On an optimizer definition without [derive_logical_axes] the
    projection raises an error whose message carries the class name of the
    definition.  With the method, and axis names it can be called on, the
    projection returns a state whose parameters and optimizer state are those
    of the optimizer the method derived. *)
Theorem as_logical_axes_capability S :
  let optimizer_def := optim.optimizer_def (_optimizer S) in
  (optim.derive_logical_axes optimizer_def = None →
   as_logical_axes S
   = Raise (ValueError
              ("Optimizer '" ++ optim.class_name optimizer_def
               ++ "' requires a `derive_logical_axes` method to be used with named axis partitioning.")))
  ∧ (∀ derive axis_names o',
       optim.derive_logical_axes optimizer_def = Some derive →
       flax_partitioning.get_axis_names (params_axes S) = OK axis_names →
       derive (_optimizer S) axis_names = OK o' →
       ∃ S', as_logical_axes S = OK S'
             ∧ params S' = optim.target o'
             ∧ param_states S' = optim.param_states o').
Proof.
  intros optimizer_def. subst optimizer_def. split.
  - intros Hnone. unfold as_logical_axes. rewrite Hnone. reflexivity.
  - intros derive axis_names o' Hsome Hnames Hderive.
    unfold as_logical_axes. rewrite Hsome, Hnames, bind_OK, Hderive, bind_OK.
    eexists. split; [reflexivity|]. split; reflexivity.
Qed.

(** C7. [replace_step] returns a state with the new step and the parameters,
    optimizer state and Flax mutables of the old one, and what it returns is
    [restore_state] on the state dict of the state with the step entry
    overwritten. *)
Theorem replace_step_restores S (n : Z) :
  state_dict_leaves_flax_mutables →
  restore_ignores_flax_mutables →
  restore_of_new_step →
  replace_step S n = restore_state S (overwrite_step n (state_dict S))
  ∧ ∃ S', replace_step S n = OK S'
          ∧ step S' = n
          ∧ params S' = params S
          ∧ param_states S' = param_states S
          ∧ flax_mutables S' = flax_mutables S.
Proof.
  intros Hfree Hignore Hnew.
  destruct (Hnew (_optimizer S) n) as (m & o' & Hstate & Hopt & Hstep & Htarget & Hstates).
  assert (state_dict S !! "state" = Some (Dict m)) as Hstate'.
  { unfold state_dict. destruct (truthy (flax_mutables S)); [|done].
    by rewrite lookup_insert_ne. }
  assert (replace_step S n
          = restore_state S
              (<["state" := Dict (<["step" := Leaf (Int n)]> m)]> (state_dict S)))
    as Hcode.
  { unfold replace_step. by rewrite (getitem_Some _ _ _ Hstate'). }
  split.
  - by rewrite Hcode, (overwrite_step_insert _ _ _ Hstate').
  - exists (replace S (Some o') None (Some (flax_mutables S))). split.
    + rewrite Hcode.
      apply (restore_state_keeps_mutables S S _
               (<["state" := Dict (<["step" := Leaf (Int n)]> m)]>
                  (optim.state_dict (_optimizer S)))); [done| |done|].
      * rewrite lookup_insert_ne by done. apply Hfree.
      * unfold state_dict. destruct (truthy (flax_mutables S)); [|done].
        by apply insert_insert_ne.
    + unfold step, params, param_states. cbn. auto.
Qed.

(** C8. [restore_state] checks no key of the snapshot itself.  When the
    optimizer's [restore_state] returns on a snapshot without
    ['flax_mutables'], the state has the restored optimizer, the axis metadata
    of the receiver and empty mutables; when it raises, because a key it
    needs is missing or for another reason, [restore_state] raises the same
    error and returns no state. *)
Theorem restore_state_follows_optimizer S sd :
  (∀ o', optim.restore_state (_optimizer S) sd = OK o' →
         sd !! "flax_mutables" = None →
         restore_state S sd
         = OK {| _optimizer := o'; params_axes := params_axes S;
                 flax_mutables := EMPTY_DICT |})
  ∧ (∀ e, optim.restore_state (_optimizer S) sd = Raise e →
          restore_state S sd = Raise e
          ∧ ∀ S', restore_state S sd ≠ OK S').
Proof.
  split.
  - intros o' Hopt Hnone. by apply restore_state_without_mutables.
  - intros e Hopt. rewrite (restore_state_raises _ _ _ Hopt). done.
Qed.

(** C9. The state [restore_state] returns has the axis metadata of the state
    it was called on; the snapshot has no say in it. *)
Theorem restore_state_params_axes S sd S' :
  restore_state S sd = OK S' → params_axes S' = params_axes S.
Proof.
  unfold restore_state. intros Hres.
  apply bind_inv_OK in Hres as (o' & _ & Hres).
  apply bind_inv_OK in Hres as (fm & _ & Hres).
  injection Hres as <-. reflexivity.
Qed.

(** C10. A state the projection returns has no axis metadata and no
    mutables, whatever the projected state had. *)
Theorem as_logical_axes_defaults S S' :
  as_logical_axes S = OK S' →
  params_axes S' = None ∧ flax_mutables S' = EMPTY_DICT.
Proof.
  unfold as_logical_axes. intros Hres.
  destruct (optim.derive_logical_axes _) as [derive|]; [|discriminate].
  apply bind_inv_OK in Hres as (axis_names & _ & Hres).
  apply bind_inv_OK in Hres as (o' & _ & Hres).
  injection Hres as <-. split; reflexivity.
Qed.

End TrainStateFacts.

(** ** The reference optimizer meets the expectations *)

Section RefFacts.
Context {tensor : Type}.
Implicit Types o : ref.Optimizer tensor.
Implicit Types sd : gmap string (pytree tensor).

Lemma ref_state_dict_leaves_flax_mutables :
  state_dict_leaves_flax_mutables (Optimizer := ref.Optimizer tensor).
Proof. intros o. cbn. unfold ref.state_dict. by simplify_map_eq. Qed.

Lemma ref_restore_ignores_flax_mutables :
  restore_ignores_flax_mutables (Optimizer := ref.Optimizer tensor).
Proof.
  intros o sd v. cbn. unfold ref.restore_state, getitem.
  by rewrite !lookup_insert_ne.
Qed.


Lemma ref_restore_of_new_step :
  restore_of_new_step (Optimizer := ref.Optimizer tensor).
Proof.
  intros o n. eexists _, _. split; [|split].
  - cbn. unfold ref.state_dict. by simplify_map_eq.
  - cbn. unfold ref.restore_state, ref.state_dict, getitem.
    simplify_map_eq. reflexivity.
  - repeat split.
Qed.

Lemma ref_apply_gradient_increments_step :
  apply_gradient_increments_step (Optimizer := ref.Optimizer tensor).
Proof.
  intros o o' grads learning_rate. cbn. unfold ref.apply_gradient.
  intros Hres. apply bind_inv_OK in Hres as ([new_target new_states] & _ & Hres).
  by injection Hres as <-.
Qed.

End RefFacts.

(** ** The operations on concrete inputs *)

Section Runs.
Import sample.

(** The scenario of an axis-aware optimizer and a model that emits axes:
    the state keeps the axes, the other collections become the mutables, and
    the definition the optimizer holds has the axis names installed. *)
Example create_sharded :
  ∃ S, create adafactor sharded_model_variables = OK S
       ∧ params_axes S = Some weight_axes
       ∧ flax_mutables S = {[ "batch_stats" := batch_stats ]}
       ∧ params S = weights
       ∧ step S = 0
       ∧ ref.axes (ref.optimizer_def (_optimizer S)) = Some weight_axes.
Proof. eexists. split; [vm_compute; reflexivity|]. repeat split. Qed.

(** An optimizer without axis support takes a model without axes. *)
Example create_plain :
  ∃ S, create descent model_variables = OK S
       ∧ params_axes S = None
       ∧ flax_mutables S = {[ "batch_stats" := batch_stats ]}.
Proof. eexists. split; [vm_compute; reflexivity|]. repeat split. Qed.

Example create_without_params :
  create adafactor (∅ : gmap string (pytree Z)) = Raise (KeyError "params").
Proof. vm_compute. reflexivity. Qed.

(** The state dict has the mutables only when there are any. *)
Example state_dict_plain :
  state_dict plain_state
  = {[ "target" := weights;
       "state" := Dict {[ "step" := Leaf (Int 7); "param_states" := moments ]};
       "flax_mutables" := Dict {[ "batch_stats" := batch_stats ]} ]}.
Proof. vm_compute. reflexivity. Qed.

Example state_dict_sharded :
  state_dict sharded_state
  = {[ "target" := weights;
       "state" := Dict {[ "step" := Leaf (Int 0); "param_states" := moments ]} ]}.
Proof. vm_compute. reflexivity. Qed.

(** A projection with the method but without axis metadata fails in
    [get_axis_names]. *)
Example as_logical_axes_without_metadata :
  as_logical_axes (replace sharded_state None (Some None) None)
  = Raise (AssertionError "expected (frozen)dict").
Proof. vm_compute. reflexivity. Qed.

(** A snapshot whose ['flax_mutables'] is an integer is refused by [freeze]. *)
Example restore_state_mutables_not_a_mapping :
  restore_state plain_state (<["flax_mutables" := Leaf (Int 0)]> snapshot)
  = Raise (TypeError "'int' object is not iterable").
Proof. vm_compute. reflexivity. Qed.

(** [dict] on tuples of names. *)
Example freeze_tuples :
  freeze (Leaf (Axes []) : pytree Z) = OK ∅
  ∧ freeze (Leaf (Axes ["model"]) : pytree Z)
    = Raise (ValueError
               "dictionary update sequence element #0 has length 5; 2 is required")
  ∧ freeze (Leaf (Axes ["ab"; "cd"; "ax"]) : pytree Z)
    = OK {[ "a" := Leaf (Str "x"); "c" := Leaf (Str "d") ]}.
Proof. repeat split; vm_compute; reflexivity. Qed.

End Runs.

(** ** The theorems at concrete states *)

Section Witnesses.
Import sample.


Lemma apply_gradient_step_witness :
  ∃ S', apply_gradient plain_state grads learning_rate None = OK S' ∧ step S' = 8.
Proof.
  destruct (apply_gradient_step plain_state grads learning_rate None
              {| ref.optimizer_def := descent;
                 ref.state := {| ref.step := 8; ref.param_states := moments |};
                 ref.target := weights |})
    as (S' & Hres & Hstep).
  - apply ref_apply_gradient_increments_step.
  - vm_compute. reflexivity.
  - exists S'. split; [exact Hres | exact Hstep].
Defined.

Lemma apply_gradient_params_axes_witness :
  ∃ S', apply_gradient sharded_state grads learning_rate (Some new_mutables) = OK S'
        ∧ params_axes S' = Some weight_axes.
Proof.
  refine (apply_gradient_params_axes sharded_state grads learning_rate
            (Some new_mutables)
            {| ref.optimizer_def := adafactor;
               ref.state := {| ref.step := 1; ref.param_states := moments |};
               ref.target := weights |} _).
  vm_compute. reflexivity.
Defined.

(** The old state has ['batch_stats']; the new one has ['cache'] alone. *)
Lemma apply_gradient_flax_mutables_witness :
  (∃ S', apply_gradient plain_state grads learning_rate (Some new_mutables) = OK S'
         ∧ flax_mutables S' = new_mutables
         ∧ flax_mutables S' !! "batch_stats" = None)
  ∧ (∃ S', apply_gradient plain_state grads learning_rate None = OK S'
           ∧ flax_mutables S' = ∅).
Proof.
  destruct (apply_gradient_flax_mutables plain_state grads learning_rate
              {| ref.optimizer_def := descent;
                 ref.state := {| ref.step := 8; ref.param_states := moments |};
                 ref.target := weights |})
    as [Hgiven Hdefault].
  - vm_compute. reflexivity.
  - split; [|exact Hdefault].
    destruct (Hgiven new_mutables) as (S' & Hres & Hfm & Hkeys).
    exists S'. split; [exact Hres|]. split; [exact Hfm|].
    apply Hkeys. vm_compute. reflexivity.
Defined.

Lemma create_missing_axes_witness :
  create adafactor model_variables = Raise (ValueError missing_axes_message)
  ∧ ∀ S, create adafactor model_variables ≠ OK S.
Proof.
  apply (create_missing_axes adafactor (ref.set_param_axes adafactor)
           model_variables {[ "batch_stats" := batch_stats ]} weights).
  - reflexivity.
  - vm_compute. reflexivity.
  - vm_compute. reflexivity.
Defined.

(** [descent] has no [derive_logical_axes]; [adafactor] has it. *)
Lemma as_logical_axes_capability_witness :
  as_logical_axes plain_state
  = Raise (ValueError
             "Optimizer 'GradientDescent' requires a `derive_logical_axes` method to be used with named axis partitioning.")
  ∧ ∃ S', as_logical_axes sharded_state = OK S'
          ∧ params S' = weight_axes
          ∧ param_states S' = weight_axes.
Proof.
  split.
  - refine (proj1 (as_logical_axes_capability plain_state) _). reflexivity.
  - refine (proj2 (as_logical_axes_capability sharded_state)
              ref.derive_logical_axes weight_axes
              {| ref.optimizer_def := adafactor;
                 ref.state := {| ref.step := 0; ref.param_states := weight_axes |};
                 ref.target := weight_axes |} _ _ _).
    + reflexivity.
    + vm_compute. reflexivity.
    + vm_compute. reflexivity.
Defined.

Lemma replace_step_restores_witness :
  replace_step plain_state 42
  = restore_state plain_state (overwrite_step 42 (state_dict plain_state))
  ∧ ∃ S', replace_step plain_state 42 = OK S'
          ∧ step S' = 42
          ∧ params S' = weights
          ∧ param_states S' = moments
          ∧ flax_mutables S' = {[ "batch_stats" := batch_stats ]}.
Proof.
  exact (replace_step_restores plain_state 42
           ref_state_dict_leaves_flax_mutables
           ref_restore_ignores_flax_mutables
           ref_restore_of_new_step).
Defined.

Lemma restore_state_follows_optimizer_witness :
  (∃ S', restore_state plain_state snapshot = OK S'
         ∧ flax_mutables S' = ∅
         ∧ params_axes S' = None
         ∧ step S' = 3)
  ∧ restore_state plain_state truncated_snapshot = Raise (KeyError "state")
  ∧ ∀ S', restore_state plain_state truncated_snapshot ≠ OK S'.
Proof.
  split.
  - eexists. split.
    + refine (proj1 (restore_state_follows_optimizer plain_state snapshot)
                {| ref.optimizer_def := descent;
                   ref.state := {| ref.step := 3; ref.param_states := moments |};
                   ref.target := weights |} _ _);
        vm_compute; reflexivity.
    + repeat split.
  - refine (proj2 (restore_state_follows_optimizer plain_state truncated_snapshot)
              (KeyError "state") _).
    vm_compute. reflexivity.
Defined.

(** A snapshot with the parameter tree and the step, and without the
    optimizer state: the keys of [has_required_keys] are there, the snapshot
    has no ['flax_mutables'], and the optimizer refuses it. *)
Lemma restore_state_required_keys_counterexample :
  has_required_keys more_sample.partial_snapshot
  ∧ more_sample.partial_snapshot !! "flax_mutables" = None
  ∧ (∃ e, restore_state plain_state more_sample.partial_snapshot = Raise e)
  ∧ ∀ S', restore_state plain_state more_sample.partial_snapshot ≠ OK S'.
Proof.
  assert (∃ e, restore_state plain_state more_sample.partial_snapshot = Raise e)
    as [e He] by (eexists; vm_compute; reflexivity).
  split; [|split; [|split]].
  - split; [by eexists|]. eexists. split; [vm_compute; reflexivity|by eexists].
  - vm_compute. reflexivity.
  - by exists e.
  - intros S'. by rewrite He.
Qed.

(** The state that the projection of [sharded_state] returns has an optimizer
    definition with [derive_logical_axes] and no axis metadata: projecting it
    again fails in [get_axis_names] and returns no state. *)
Lemma as_logical_axes_capability_counterexample :
  as_logical_axes sharded_state = OK more_sample.projected_state
  ∧ is_Some (optim.derive_logical_axes
               (optim.optimizer_def (_optimizer more_sample.projected_state)))
  ∧ as_logical_axes more_sample.projected_state
    = Raise (AssertionError "expected (frozen)dict")
  ∧ ∀ S', as_logical_axes more_sample.projected_state ≠ OK S'.
Proof.
  assert (as_logical_axes more_sample.projected_state
          = Raise (AssertionError "expected (frozen)dict")) as Hfail
    by (vm_compute; reflexivity).
  split; [vm_compute; reflexivity|]. split; [by eexists|]. split; [done|].
  intros S'. by rewrite Hfail.
Qed.

Lemma restore_state_params_axes_witness :
  ∃ S', restore_state sharded_state snapshot = OK S'
        ∧ params_axes S' = Some weight_axes.
Proof.
  eexists. split.
  - vm_compute. reflexivity.
  - apply (restore_state_params_axes sharded_state snapshot).
    vm_compute. reflexivity.
Defined.

Lemma as_logical_axes_defaults_witness :
  ∃ S', as_logical_axes (replace sharded_state None None (Some new_mutables)) = OK S'
        ∧ params_axes S' = None
        ∧ flax_mutables S' = ∅.
Proof.
  eexists. split.
  - vm_compute. reflexivity.
  - apply (as_logical_axes_defaults
             (replace sharded_state None None (Some new_mutables))).
    vm_compute. reflexivity.
Defined.

End Witnesses.

(** ** More of the train state: construction, replacement, checkpoints *)

Section MoreTrainStateFacts.
Context {tensor OptimizerDef Optimizer : Type}.
Context `{!optim.Optim tensor OptimizerDef Optimizer}.
Context `{!flax_partitioning.Partitioning tensor}.
Context `{!flax_core.Core tensor}.
Implicit Types S T : FlaxOptimTrainState tensor Optimizer.
Implicit Types sd mv : gmap string (pytree tensor).
Implicit Types optimizer_def new_def : OptimizerDef.
Implicit Types optimizer : Optimizer.
Implicit Types model_params found axis_names : pytree tensor.

Lemma FrozenDict_pop_Some key (d : gmap string (pytree tensor)) v :
  d !! key = Some v → FrozenDict_pop key d = OK (delete key d, v).
Proof. intros Hv. unfold FrozenDict_pop. by rewrite (getitem_Some _ _ _ Hv). Qed.

(** The split of the variables that are not parameters into the mutables and
    the axis metadata. *)
Lemma split_params_axes (other : gmap string (pytree tensor)) :
  (if contains "params_axes" other
   then '(rest, found) ← FrozenDict_pop "params_axes" other;
        mret (rest, Some found)
   else mret (other, None))
  = OK (delete "params_axes" other, other !! "params_axes").
Proof.
  destruct (other !! "params_axes") as [found|] eqn:Haxes.
  - assert (contains "params_axes" other = true) as ->
      by (apply contains_true; eauto).
    by rewrite (FrozenDict_pop_Some _ _ _ Haxes).
  - assert (contains "params_axes" other = false) as ->
      by (by apply contains_false).
    by rewrite (delete_id _ _ Haxes).
Qed.

(** [create] once the parameters are found: what is left is the axis check
    and the optimizer. *)
Lemma create_with_params optimizer_def mv model_params :
  mv !! "params" = Some model_params →
  create optimizer_def mv
  = (new_def ←
       match optim.set_param_axes optimizer_def with
       | Some set_param_axes =>
           match mv !! "params_axes" with
           | None => Raise (ValueError missing_axes_message)
           | Some _ =>
               axis_names ← flax_partitioning.get_axis_names (mv !! "params_axes");
               set_param_axes axis_names
           end
       | None => mret optimizer_def
       end;
     optimizer ← optim.create new_def model_params;
     mret {| _optimizer := optimizer;
             params_axes := mv !! "params_axes";
             flax_mutables := delete "params_axes" (delete "params" mv) |}).
Proof.
  intros Hparams. unfold create.
  rewrite (FrozenDict_pop_Some _ _ _ Hparams), bind_OK.
  rewrite split_params_axes, bind_OK.
  by rewrite lookup_delete_ne.
Qed.

(** A state that [create] returned, traced back through [create]. *)
Lemma create_inv optimizer_def mv S :
  create optimizer_def mv = OK S →
  ∃ model_params new_def,
    mv !! "params" = Some model_params
    ∧ optim.create new_def model_params = OK (_optimizer S)
    ∧ params_axes S = mv !! "params_axes"
    ∧ flax_mutables S = delete "params_axes" (delete "params" mv)
    ∧ match optim.set_param_axes optimizer_def with
      | None => new_def = optimizer_def
      | Some set_param_axes =>
          ∃ found axis_names,
            mv !! "params_axes" = Some found
            ∧ flax_partitioning.get_axis_names (Some found) = OK axis_names
            ∧ set_param_axes axis_names = OK new_def
      end.
Proof.
  intros Hres. destruct (mv !! "params") as [model_params|] eqn:Hparams.
  - rewrite (create_with_params _ _ _ Hparams) in Hres.
    apply bind_inv_OK in Hres as (new_def & Hdef & Hres).
    apply bind_inv_OK in Hres as (optimizer & Hopt & Hres).
    injection Hres as <-. exists model_params, new_def. cbn.
    repeat split; [done|].
    destruct (optim.set_param_axes optimizer_def) as [set_param_axes|].
    + destruct (mv !! "params_axes") as [found|]; [|discriminate].
      apply bind_inv_OK in Hdef as (axis_names & Hnames & Hset). eauto.
    + by injection Hdef.
  - unfold create, FrozenDict_pop in Hres.
    by rewrite (getitem_None _ _ Hparams) in Hres.
Qed.

(** X1. With a definition that has no [set_param_axes], [create] hands the
    parameters to the definition and keeps the rest of the variables: the
    axis metadata, when the model emits it, and every other collection as
    the mutables. *)
Theorem create_without_set_param_axes optimizer_def mv model_params optimizer :
  optim.set_param_axes optimizer_def = None →
  mv !! "params" = Some model_params →
  optim.create optimizer_def model_params = OK optimizer →
  create optimizer_def mv
  = OK {| _optimizer := optimizer;
          params_axes := mv !! "params_axes";
          flax_mutables := delete "params_axes" (delete "params" mv) |}.
Proof.
  intros Hset Hparams Hopt.
  by rewrite (create_with_params _ _ _ Hparams), Hset, bind_OK, Hopt.
Qed.

(** X2. With a definition that has [set_param_axes] and a model that emits axis
    metadata, the optimizer is created from the definition that
    [set_param_axes] returns on the axis names of the metadata. *)
Theorem create_with_set_param_axes optimizer_def set_param_axes mv
    model_params found axis_names new_def optimizer :
  optim.set_param_axes optimizer_def = Some set_param_axes →
  mv !! "params" = Some model_params →
  mv !! "params_axes" = Some found →
  flax_partitioning.get_axis_names (Some found) = OK axis_names →
  set_param_axes axis_names = OK new_def →
  optim.create new_def model_params = OK optimizer →
  create optimizer_def mv
  = OK {| _optimizer := optimizer;
          params_axes := Some found;
          flax_mutables := delete "params_axes" (delete "params" mv) |}.
Proof.
  intros Hset Hparams Haxes Hnames Hnew Hopt.
  rewrite (create_with_params _ _ _ Hparams), Hset, Haxes.
  by rewrite Hnames, bind_OK, Hnew, bind_OK, Hopt.
Qed.

(** X3. The mutables of a created state are the model variables without
    ['params'] and ['params_axes']: these two keys are never among them, and
    every other collection is there as the model emitted it. *)
Theorem create_flax_mutables optimizer_def mv S :
  create optimizer_def mv = OK S →
  flax_mutables S !! "params" = None
  ∧ flax_mutables S !! "params_axes" = None
  ∧ ∀ key, key ≠ "params" → key ≠ "params_axes" →
           flax_mutables S !! key = mv !! key.
Proof.
  intros Hres.
  destruct (create_inv _ _ _ Hres) as (model_params & new_def & _ & _ & _ & -> & _).
  split; [|split].
  - by rewrite lookup_delete_ne, lookup_delete_eq.
  - apply lookup_delete_eq.
  - intros key Hparams Haxes. by rewrite !lookup_delete_ne.
Qed.

(** X4. A state created from a definition with [set_param_axes] has axis
    metadata, the model's, and its optimizer was created from the definition
    [set_param_axes] returned, not from the one [create] was given. *)
Theorem create_axis_support_has_axes optimizer_def set_param_axes mv S :
  optim.set_param_axes optimizer_def = Some set_param_axes →
  create optimizer_def mv = OK S →
  ∃ model_params found axis_names new_def,
    mv !! "params" = Some model_params
    ∧ mv !! "params_axes" = Some found
    ∧ params_axes S = Some found
    ∧ flax_partitioning.get_axis_names (Some found) = OK axis_names
    ∧ set_param_axes axis_names = OK new_def
    ∧ optim.create new_def model_params = OK (_optimizer S).
Proof.
  intros Hset Hres.
  destruct (create_inv _ _ _ Hres)
    as (model_params & new_def & Hparams & Hopt & Haxes & _ & Hdef).
  rewrite Hset in Hdef. destruct Hdef as (found & axis_names & Hfound & Hnames & Hnew).
  exists model_params, found, axis_names, new_def.
  rewrite Haxes. auto 10.
Qed.

(** A state [restore_state] returned, traced back: the optimizer is the one
    the old optimizer restored, the axes are the receiver's, and the mutables
    are what [freeze] made of the snapshot's entry, or empty without one. *)
Lemma restore_state_inv S sd S' :
  restore_state S sd = OK S' →
  ∃ o' mutables,
    optim.restore_state (_optimizer S) sd = OK o'
    ∧ S' = {| _optimizer := o'; params_axes := params_axes S;
              flax_mutables := mutables |}
    ∧ (sd !! "flax_mutables" = None ∧ mutables = ∅
       ∨ ∃ value, sd !! "flax_mutables" = Some value ∧ freeze value = OK mutables).
Proof.
  unfold restore_state. intros Hres.
  apply bind_inv_OK in Hres as (o' & Hopt & Hres).
  apply bind_inv_OK in Hres as (mutables & Hfm & Hres).
  injection Hres as <-. exists o', mutables. split; [done|]. split; [done|].
  destruct (sd !! "flax_mutables") as [value|] eqn:Hvalue.
  - assert (contains "flax_mutables" sd = true) as Hin
      by (apply contains_true; eauto).
    rewrite Hin, (getitem_Some _ _ _ Hvalue), bind_OK in Hfm.
    right. by exists value.
  - assert (contains "flax_mutables" sd = false) as Hout
      by (by apply contains_false).
    rewrite Hout in Hfm. injection Hfm as <-. by left.
Qed.

Lemma state_dict_lookup_ne S key :
  key ≠ "flax_mutables" →
  state_dict S !! key = optim.state_dict (_optimizer S) !! key.
Proof.
  intros Hne. unfold state_dict. destruct (truthy (flax_mutables S)); [|done].
  by rewrite lookup_insert_ne.
Qed.

Lemma state_dict_lookup_mutables S :
  state_dict_leaves_flax_mutables →
  state_dict S !! "flax_mutables"
  = (if truthy (flax_mutables S) then Some (Dict (flax_mutables S)) else None).
Proof.
  intros Hfree. unfold state_dict. destruct (truthy (flax_mutables S)).
  - apply lookup_insert_eq.
  - apply Hfree.
Qed.

(** What [replace_step] returns over an optimizer that keeps its step under
    ['state']['step']. *)
Lemma replace_step_result S (n : Z) :
  state_dict_leaves_flax_mutables →
  restore_ignores_flax_mutables →
  restore_of_new_step →
  ∃ o', replace_step S n
        = OK {| _optimizer := o'; params_axes := params_axes S;
                flax_mutables := flax_mutables S |}
        ∧ optim.step o' = n
        ∧ optim.target o' = optim.target (_optimizer S)
        ∧ optim.param_states o' = optim.param_states (_optimizer S).
Proof.
  intros Hfree Hignore Hnew.
  destruct (Hnew (_optimizer S) n) as (m & o' & Hstate & Hopt & Hpayload).
  exists o'. split; [|done].
  unfold replace_step.
  rewrite (getitem_Some _ _ (Dict m)) by (by rewrite state_dict_lookup_ne).
  cbn.
  apply (restore_state_keeps_mutables S S _
           (<["state" := Dict (<["step" := Leaf (Int n)]> m)]>
              (optim.state_dict (_optimizer S)))); [done| |done|].
  - rewrite lookup_insert_ne by done. apply Hfree.
  - unfold state_dict. destruct (truthy (flax_mutables S)); [|done].
    by apply insert_insert_ne.
Qed.

(** X6. [replace_params] puts the new parameters in and keeps the step, the
    optimizer state, the axis metadata and the mutables, over an optimizer
    whose [replace] sets the target alone.  The new parameters are not
    compared with the optimizer state. *)
Theorem replace_params_payload S (new_params : pytree tensor) :
  replace_target_sets_target →
  params (replace_params S new_params) = new_params
  ∧ step (replace_params S new_params) = step S
  ∧ param_states (replace_params S new_params) = param_states S
  ∧ params_axes (replace_params S new_params) = params_axes S
  ∧ flax_mutables (replace_params S new_params) = flax_mutables S.
Proof.
  intros Hset.
  destruct (Hset (_optimizer S) new_params) as (Htarget & Hstep & Hstates).
  unfold params, step, param_states, replace_params. cbn. auto.
Qed.

(** X7. Parameters replaced and then the step replaced: the state has the new
    parameters and the new step, and the optimizer state, axis metadata and
    mutables it had before both. *)
Theorem replace_step_after_replace_params S (new_params : pytree tensor) (n : Z) :
  replace_target_sets_target →
  state_dict_leaves_flax_mutables →
  restore_ignores_flax_mutables →
  restore_of_new_step →
  ∃ S', replace_step (replace_params S new_params) n = OK S'
        ∧ step S' = n
        ∧ params S' = new_params
        ∧ param_states S' = param_states S
        ∧ params_axes S' = params_axes S
        ∧ flax_mutables S' = flax_mutables S.
Proof.
  intros Hset Hfree Hignore Hnew.
  destruct (replace_step_result (replace_params S new_params) n Hfree Hignore Hnew)
    as (o' & Hres & Hstep & Htarget & Hstates).
  destruct (Hset (_optimizer S) new_params) as (Htarget' & _ & Hstates').
  eexists. split; [exact Hres|].
  unfold step, params, param_states. cbn.
  rewrite Htarget, Hstates. cbn. auto.
Qed.

(** X8. The state dict is the optimizer's state dict with one entry of the train
    state's own: every other key reads as in the optimizer's, the mutables
    are under ['flax_mutables'] when there are any, and with none the state
    dict is the optimizer's as it is. *)
Theorem state_dict_entries S :
  (∀ key, key ≠ "flax_mutables" →
          state_dict S !! key = optim.state_dict (_optimizer S) !! key)
  ∧ (flax_mutables S ≠ ∅ →
     state_dict S !! "flax_mutables" = Some (Dict (flax_mutables S)))
  ∧ (flax_mutables S = ∅ → state_dict S = optim.state_dict (_optimizer S)).
Proof.
  split; [|split].
  - intros key. apply state_dict_lookup_ne.
  - intros Hsome. unfold state_dict.
    destruct (truthy (flax_mutables S)) eqn:Hfm.
    + apply lookup_insert_eq.
    + by apply truthy_false in Hfm.
  - intros Hnone. unfold state_dict. apply truthy_false in Hnone. by rewrite Hnone.
Qed.

(** X9. On a snapshot the optimizer accepts, the mutables of the restored state
    are the snapshot's ['flax_mutables'] and nothing of the receiver's.  An
    entry that is no dictionary goes through [freeze] all the same, after the
    optimizer was restored: what [freeze] makes of it are the mutables, and
    an error of [freeze] is the error of [restore_state]. *)
Theorem restore_state_snapshot_mutables S sd o' value :
  optim.restore_state (_optimizer S) sd = OK o' →
  sd !! "flax_mutables" = Some value →
  (∀ d, value = Dict d →
        restore_state S sd
        = OK {| _optimizer := o'; params_axes := params_axes S; flax_mutables := d |})
  ∧ (∀ d, freeze value = OK d →
          restore_state S sd
          = OK {| _optimizer := o'; params_axes := params_axes S; flax_mutables := d |})
  ∧ (∀ e, freeze value = Raise e → restore_state S sd = Raise e).
Proof.
  intros Hopt Hvalue.
  assert (restore_state S sd
          = (mutables ← freeze value;
             mret (replace S (Some o') None (Some mutables)))) as ->.
  { unfold restore_state. rewrite Hopt, bind_OK.
    assert (contains "flax_mutables" sd = true) as ->
      by (apply contains_true; eauto).
    by rewrite (getitem_Some _ _ _ Hvalue), bind_OK. }
  split; [|split].
  - by intros d ->.
  - intros d Hfreeze. by rewrite Hfreeze.
  - intros e Hfreeze. by rewrite Hfreeze.
Qed.

(** X11. Whatever the optimizer does with the new step, a state [replace_step]
    returns has the axis metadata and the mutables of the old state. *)
Theorem replace_step_keeps_axes_and_mutables S (n : Z) S' :
  state_dict_leaves_flax_mutables →
  replace_step S n = OK S' →
  params_axes S' = params_axes S ∧ flax_mutables S' = flax_mutables S.
Proof.
  intros Hfree Hres. unfold replace_step in Hres.
  apply bind_inv_OK in Hres as (state & _ & Hres).
  apply bind_inv_OK in Hres as (state' & _ & Hres).
  apply restore_state_inv in Hres as (o' & mutables & _ & -> & Hfm).
  split; [done|]. cbn.
  rewrite lookup_insert_ne, (state_dict_lookup_mutables S Hfree) in Hfm by done.
  destruct (truthy (flax_mutables S)) eqn:Htruthy.
  - destruct Hfm as [[Hfm _]|(value & Hvalue & Hfm)]; [discriminate|].
    injection Hvalue as <-. by injection Hfm.
  - apply truthy_false in Htruthy.
    destruct Hfm as [[_ ->]|(value & Hvalue & _)]; [done|discriminate].
Qed.

(** X12. [replace_step] reaches for ['state'] in the optimizer's state dict: over
    an optimizer that keeps nothing there it raises the [KeyError] of the
    lookup and restores nothing. *)
Theorem replace_step_without_state_entry S (n : Z) :
  optim.state_dict (_optimizer S) !! "state" = None →
  replace_step S n = Raise (KeyError "state").
Proof.
  intros Hnone. unfold replace_step.
  rewrite (getitem_None "state" (state_dict S)); [done|].
  by rewrite state_dict_lookup_ne.
Qed.

(** X13. Having [derive_logical_axes] is not enough for the projection: the error
    of [get_axis_names] on the axis metadata of the state, or else the error
    of the method itself, is the error of the projection. *)
Theorem as_logical_axes_propagates S derive e :
  optim.derive_logical_axes (optim.optimizer_def (_optimizer S)) = Some derive →
  (flax_partitioning.get_axis_names (params_axes S) = Raise e
   ∨ ∃ axis_names,
       flax_partitioning.get_axis_names (params_axes S) = OK axis_names
       ∧ derive (_optimizer S) axis_names = Raise e) →
  as_logical_axes S = Raise e.
Proof.
  intros Hsome Hfail. unfold as_logical_axes. rewrite Hsome.
  destruct Hfail as [Hnames|(axis_names & Hnames & Hderive)].
  - by rewrite Hnames.
  - by rewrite Hnames, bind_OK, Hderive.
Qed.

End MoreTrainStateFacts.

(** ** The further theorems at concrete states *)

Section MoreWitnesses.
Import sample more_sample.

Lemma ref_replace_target_sets_target :
  replace_target_sets_target (Optimizer := ref.Optimizer Z).
Proof. intros o new_params. repeat split. Qed.

(** [descent] has no use for axes: it takes a model without them, and from a
    model with them the state keeps them all the same. *)
Lemma create_without_set_param_axes_witness :
  create descent model_variables
  = OK {| _optimizer :=
            {| ref.optimizer_def := descent;
               ref.state := {| ref.step := 0; ref.param_states := weights |};
               ref.target := weights |};
          params_axes := None;
          flax_mutables := {[ "batch_stats" := batch_stats ]} |}
  ∧ create descent sharded_model_variables
    = OK {| _optimizer :=
              {| ref.optimizer_def := descent;
                 ref.state := {| ref.step := 0; ref.param_states := weights |};
                 ref.target := weights |};
            params_axes := Some weight_axes;
            flax_mutables := {[ "batch_stats" := batch_stats ]} |}.
Proof.
  split.
  - refine (eq_trans (create_without_set_param_axes descent model_variables
                        weights _ _ _ _) _);
      [reflexivity | vm_compute; reflexivity | vm_compute; reflexivity
      | vm_compute; reflexivity].
  - refine (eq_trans (create_without_set_param_axes descent sharded_model_variables
                        weights _ _ _ _) _);
      [reflexivity | vm_compute; reflexivity | vm_compute; reflexivity
      | vm_compute; reflexivity].
Defined.

Lemma create_with_set_param_axes_witness :
  ∃ o, create adafactor sharded_model_variables
       = OK {| _optimizer := o; params_axes := Some weight_axes;
               flax_mutables := {[ "batch_stats" := batch_stats ]} |}
       ∧ ref.axes (ref.optimizer_def o) = Some weight_axes
       ∧ ref.target o = weights.
Proof.
  eexists. split.
  - refine (eq_trans (create_with_set_param_axes adafactor
                        (ref.set_param_axes adafactor) sharded_model_variables
                        weights weight_axes weight_axes _ _ _ _ _ _ _ _) _);
      [reflexivity | vm_compute; reflexivity | vm_compute; reflexivity
      | vm_compute; reflexivity | reflexivity | reflexivity
      | vm_compute; reflexivity].
  - split; reflexivity.
Defined.

Lemma create_flax_mutables_witness :
  ∃ S, create adafactor sharded_model_variables = OK S
       ∧ flax_mutables S !! "params" = None
       ∧ flax_mutables S !! "params_axes" = None
       ∧ flax_mutables S !! "batch_stats" = Some batch_stats.
Proof.
  eexists. split; [vm_compute; reflexivity|].
  edestruct (create_flax_mutables adafactor sharded_model_variables)
    as (Hparams & Haxes & Hrest); [vm_compute; reflexivity|].
  split; [exact Hparams|]. split; [exact Haxes|].
  exact (Hrest "batch_stats" ltac:(discriminate) ltac:(discriminate)).
Defined.

Lemma create_axis_support_has_axes_witness :
  ∃ S, create adafactor sharded_model_variables = OK S
       ∧ params_axes S = Some weight_axes.
Proof.
  eexists. split; [vm_compute; reflexivity|].
  edestruct (create_axis_support_has_axes adafactor (ref.set_param_axes adafactor)
               sharded_model_variables)
    as (model_params & found & axis_names & new_def & _ & Hfound & Haxes & _);
    [reflexivity | vm_compute; reflexivity|].
  rewrite Haxes, <- Hfound. vm_compute. reflexivity.
Defined.

(** A model with axis metadata and no parameters, and an optimizer that
    wants the axes: the complaint is about the parameters. *)
Lemma create_missing_params_witness :
  create adafactor axes_only_variables = Raise (KeyError "params").
Proof.
  apply (create_missing_params adafactor axes_only_variables).
  vm_compute. reflexivity.
Defined.

Lemma replace_params_payload_witness :
  params (replace_params plain_state new_weights) = new_weights
  ∧ step (replace_params plain_state new_weights) = 7
  ∧ param_states (replace_params plain_state new_weights) = moments
  ∧ params_axes (replace_params plain_state new_weights) = None
  ∧ flax_mutables (replace_params plain_state new_weights)
    = {[ "batch_stats" := batch_stats ]}.
Proof.
  exact (replace_params_payload plain_state new_weights
           ref_replace_target_sets_target).
Defined.

Lemma replace_step_after_replace_params_witness :
  ∃ S', replace_step (replace_params sharded_state new_weights) 42 = OK S'
        ∧ step S' = 42
        ∧ params S' = new_weights
        ∧ param_states S' = moments
        ∧ params_axes S' = Some weight_axes
        ∧ flax_mutables S' = ∅.
Proof.
  exact (replace_step_after_replace_params sharded_state new_weights 42
           ref_replace_target_sets_target
           ref_state_dict_leaves_flax_mutables
           ref_restore_ignores_flax_mutables
           ref_restore_of_new_step).
Defined.

(** The receiver has ['batch_stats']; the snapshot brings ['cache'], or an
    empty tuple, or an integer. *)
Lemma restore_state_snapshot_mutables_witness :
  (∃ S', restore_state plain_state
           (<["flax_mutables" := Dict new_mutables]> snapshot) = OK S'
         ∧ flax_mutables S' = new_mutables
         ∧ step S' = 3)
  ∧ (∃ S', restore_state plain_state
             (<["flax_mutables" := Leaf (Axes [])]> snapshot) = OK S'
           ∧ flax_mutables S' = ∅)
  ∧ restore_state plain_state (<["flax_mutables" := Leaf (Int 0)]> snapshot)
    = Raise (TypeError "'int' object is not iterable").
Proof.
  pose (o' := {| ref.optimizer_def := descent;
                 ref.state := {| ref.step := 3; ref.param_states := moments |};
                 ref.target := weights |}).
  split; [|split].
  - eexists. split.
    + refine (proj1 (restore_state_snapshot_mutables plain_state
                       (<["flax_mutables" := Dict new_mutables]> snapshot)
                       o' (Dict new_mutables) _ _) new_mutables _);
        [vm_compute; reflexivity | vm_compute; reflexivity | reflexivity].
    + split; reflexivity.
  - eexists. split.
    + refine (proj1 (proj2 (restore_state_snapshot_mutables plain_state
                              (<["flax_mutables" := Leaf (Axes [])]> snapshot)
                              o' (Leaf (Axes [])) _ _)) ∅ _);
        [vm_compute; reflexivity | vm_compute; reflexivity | reflexivity].
    + reflexivity.
  - refine (proj2 (proj2 (restore_state_snapshot_mutables plain_state
                            (<["flax_mutables" := Leaf (Int 0)]> snapshot)
                            o' (Leaf (Int 0)) _ _)) _ _);
      [vm_compute; reflexivity | vm_compute; reflexivity | reflexivity].
Defined.

(** The checkpoint of [plain_state] restored into [sharded_state]: step and
    mutables of the first, axis metadata and definition of the second. *)
Lemma restore_state_of_other_state_dict_witness :
  ∃ S', restore_state sharded_state (state_dict plain_state) = OK S'
        ∧ step S' = 7
        ∧ flax_mutables S' = {[ "batch_stats" := batch_stats ]}
        ∧ params_axes S' = Some weight_axes
        ∧ ref.optimizer_def (_optimizer S') = adafactor.
Proof.
  eexists. split.
  - refine (restore_state_of_other_state_dict sharded_state plain_state
              {| ref.optimizer_def := adafactor;
                 ref.state := {| ref.step := 7; ref.param_states := moments |};
                 ref.target := weights |}
              ref_state_dict_leaves_flax_mutables
              ref_restore_ignores_flax_mutables _).
    vm_compute. reflexivity.
  - repeat split.
Defined.

Lemma replace_step_keeps_axes_and_mutables_witness :
  ∃ S', replace_step sharded_state 3 = OK S'
        ∧ params_axes S' = Some weight_axes
        ∧ flax_mutables S' = ∅.
Proof.
  eexists. split; [vm_compute; reflexivity|].
  refine (replace_step_keeps_axes_and_mutables sharded_state 3 _
            ref_state_dict_leaves_flax_mutables _).
  vm_compute. reflexivity.
Defined.

(** The flat optimizer has its step at the top of the state dict. *)
Lemma replace_step_without_state_entry_witness :
  replace_step flat_state 6 = Raise (KeyError "state").
Proof.
  apply (replace_step_without_state_entry flat_state 6).
  vm_compute. reflexivity.
Defined.

(** [adafactor] can derive axes, and the state has none to derive from. *)
Lemma as_logical_axes_propagates_witness :
  as_logical_axes unlabelled_state = Raise (AssertionError "expected (frozen)dict").
Proof.
  apply (as_logical_axes_propagates unlabelled_state ref.derive_logical_axes).
  - reflexivity.
  - left. reflexivity.
Defined.

End MoreWitnesses.
